(** * knowhere: the Gemini service (backend/app/services/gemini_service.py)

    A shallow embedding of [GeminiService]: the construction guard on the
    API credential, the mood-conditioned prompt construction with a bounded
    window of conversation history, and the containment of remote failures
    in [generate_response] and [generate_chat_title]. *)

From Stdlib Require Import NArith Ascii String QArith Lia.
From stdpp Require Import base option list gmap.

Local Open Scope N_scope.
Local Open Scope list_scope.

(** ** Python strings

    A Python [str] is a sequence of Unicode code points; [len] and slicing
    count code points, so a string is modelled as the list of its code
    points. *)

Abbreviation char := N (only parsing).
Abbreviation str := (list N) (only parsing).

(** An ASCII literal as a Python string. *)
Definition py (s : string) : str := N_of_ascii <$> list_ascii_of_string s.

(** ["\n"] *)
Definition nl : str := [10].

(** [bool(s)] for a string: the empty string is the only falsy one. *)
Definition str_bool (s : str) : bool :=
  match s with
  | [] => false
  | _ :: _ => true
  end.

(** [bool(l)] for a list: the empty list is the only falsy one. *)
Definition list_bool {A} (l : list A) : bool :=
  match l with
  | [] => false
  | _ :: _ => true
  end.

(** [c.isspace()]: the code points CPython treats as whitespace, which are
    the ones [str.strip()] without an argument removes. *)
Definition isspace (c : char) : bool :=
  ((9 <=? c) && (c <=? 13)) || ((28 <=? c) && (c <=? 32))
  || (c =? 133) || (c =? 160) || (c =? 5760)
  || ((8192 <=? c) && (c <=? 8202))
  || (c =? 8232) || (c =? 8233) || (c =? 8239) || (c =? 8287)
  || (c =? 12288).

(** [s.lstrip()] *)
Fixpoint lstrip (s : str) : str :=
  match s with
  | [] => []
  | c :: s' => if isspace c then lstrip s' else s
  end.

(** [s.rstrip()] *)
Definition rstrip (s : str) : str := rev (lstrip (rev s)).

(** [s.strip()] *)
Definition strip (s : str) : str := rstrip (lstrip s).

(** [s.replace(old, new)] where [old] is a single character, the only form
    the service uses: every occurrence of [old] becomes [new]. *)
Fixpoint replace_char (old : char) (new : str) (s : str) : str :=
  match s with
  | [] => []
  | c :: s' =>
      (if c =? old then new else [c]) ++ replace_char old new s'
  end.

(** [l[-n:]] for [n > 0]: the start index is clamped at 0. *)
Definition slice_last {A} (n : nat) (l : list A) : list A :=
  drop (length l - n) l.

(** [l[:n]] for [n >= 0]. *)
Definition slice_upto {A} (n : nat) (l : list A) : list A := take n l.

(** [s.startswith(p)] and [p in s], used to state what a prompt contains. *)
Fixpoint startswith (p s : str) : bool :=
  match p, s with
  | [], _ => true
  | _ :: _, [] => false
  | a :: p', b :: s' => (a =? b) && startswith p' s'
  end.

Fixpoint contains (p s : str) : bool :=
  startswith p s ||
  match s with
  | [] => false
  | _ :: s' => contains p s'
  end.

Definition endswith (p s : str) : bool := startswith (rev p) (rev s).

(** ** Python values held in the caller's dictionaries and in a response *)

Inductive pyval :=
| PyNone
| PyBool (b : bool)
| PyStr (s : str).

(** Truth value of an object, as tested by [if v] and [not v]. *)
Definition truthy (v : pyval) : bool :=
  match v with
  | PyNone => false
  | PyBool b => b
  | PyStr s => str_bool s
  end.

(** [f"{v}"]: formatting with an empty format spec is [str(v)]. *)
Definition format (v : pyval) : str :=
  match v with
  | PyNone => py "None"
  | PyBool true => py "True"
  | PyBool false => py "False"
  | PyStr s => s
  end.

Definition type_name (v : pyval) : str :=
  match v with
  | PyNone => py "NoneType"
  | PyBool _ => py "bool"
  | PyStr _ => py "str"
  end.

(** [a == b] on these values. *)
Definition py_eq (a b : pyval) : bool :=
  match a, b with
  | PyNone, PyNone => true
  | PyBool x, PyBool y => Bool.eqb x y
  | PyStr s, PyStr t => bool_decide (s = t)
  | _, _ => false
  end.

(** [d.get(k, default)] *)
Definition dict_get {V} (d : gmap str V) (k : str) (dflt : V) : V :=
  default dflt (d !! k).

(** ** Exceptions

    [except Exception] catches instances of classes deriving from
    [Exception]; [KeyboardInterrupt], [SystemExit] and
    [asyncio.CancelledError] derive from [BaseException] only.

    [StopIteration], [FuturesCancelledError]
    ([concurrent.futures.CancelledError]) and [FuturesInvalidStateError]
    ([concurrent.futures.InvalidStateError]) derive from [Exception]; they
    have constructors of their own because a future treats instances of
    exactly these classes specially (see [to_thread]).
    [InvalidStateError] is [asyncio.InvalidStateError]. [LibraryError]
    stands for any other class deriving from [Exception] (and not from
    [StopIteration]), named by its qualified name. *)

Inductive exn_class :=
| ValueError
| AttributeError
| TypeError
| LibraryError (qualname : string)
| KeyboardInterrupt
| SystemExit
| CancelledError
| StopIteration
| FuturesCancelledError
| FuturesInvalidStateError
| InvalidStateError.

Record exn := Exn { exn_type : exn_class; exn_str : str }.

Definition isinstance_Exception (e : exn) : bool :=
  match exn_type e with
  | KeyboardInterrupt | SystemExit | CancelledError => false
  | _ => true
  end.

Inductive outcome (A : Type) :=
| Return (a : A)
| Raise (e : exn).
Arguments Return {A} a.
Arguments Raise {A} e.

(** ** Effects: the log and the library's global configuration *)

Inductive level := INFO | WARNING | ERROR.

Record world := World {
  log : list (level * str);
  genai_api_key : option str
}.

(** A run from a world ends by returning a value or raising, [Some o], or
    it is suspended at an [await] that is never resumed and so never
    completes, [None]; either way it leaves the world it reached. *)
Definition M (A : Type) : Type := world -> option (outcome A) * world.

Definition ret {A} (a : A) : M A := fun w => (Some (Return a), w).

Definition raise {A} (e : exn) : M A := fun w => (Some (Raise e), w).

Definition bind {A B} (m : M A) (k : A -> M B) : M B :=
  fun w =>
    match m w with
    | (Some (Return a), w') => k a w'
    | (Some (Raise e), w') => (Some (Raise e), w')
    | (None, w') => (None, w')
    end.

Declare Scope py_scope.
Delimit Scope py_scope with py.
Notation "'let!' x ':=' m 'in' k" := (bind m (fun x => k))
  (at level 10, x name, m at level 100, k at level 200) : py_scope.
Notation "'do!' m 'in' k" := (bind m (fun _ => k))
  (at level 10, m at level 100, k at level 200) : py_scope.
Local Open Scope py_scope.

(** The value or exception of a call that has no other effect. *)
Definition lift {A} (o : outcome A) : M A := fun w => (Some o, w).

(** [try: body / except Exception as e: handler e] *)
Definition try_except {A} (body : M A) (handler : exn -> M A) : M A :=
  fun w =>
    match body w with
    | (Some (Return a), w') => (Some (Return a), w')
    | (Some (Raise e), w') =>
        if isinstance_Exception e then handler e w'
        else (Some (Raise e), w')
    | (None, w') => (None, w')
    end.

(** [logger.info], [logger.warning], [logger.error]: the root logger is
    configured at level INFO, so each call appends a record. *)
Definition logger (lv : level) (msg : str) : M unit :=
  fun w =>
    (Some (Return tt), World (log w ++ [(lv, msg)]) (genai_api_key w)).

(** [await asyncio.to_thread(f, x)]: [f x] runs on a worker thread, its
    value or exception is stored in a [concurrent.futures] future, and that
    state is copied into the asyncio future the coroutine awaits
    ([asyncio.futures._copy_future_state]).
    - A value is what the [await] yields.
    - An exception of class exactly [concurrent.futures.CancelledError] or
      [concurrent.futures.InvalidStateError] is replaced by an
      [asyncio.CancelledError], respectively [asyncio.InvalidStateError],
      with the same arguments.
    - An exception of class exactly [StopIteration] is refused by
      [Future.set_exception] (CPython up to 3.11; later versions store a
      [RuntimeError] instead): the asyncio future stays pending and the
      [await] is never resumed.
    - Any other exception is raised by the [await] as it is. *)
Definition to_thread {A B} (f : A -> outcome B) (x : A) : M B :=
  fun w =>
    match f x with
    | Return b => (Some (Return b), w)
    | Raise e =>
        match exn_type e with
        | StopIteration => (None, w)
        | FuturesCancelledError =>
            (Some (Raise (Exn CancelledError (exn_str e))), w)
        | FuturesInvalidStateError =>
            (Some (Raise (Exn InvalidStateError (exn_str e))), w)
        | _ => (Some (Raise e), w)
        end
    end.

(** [v.strip()]: only strings have the method. *)
Definition method_strip (v : pyval) : M str :=
  match v with
  | PyStr s => ret (strip s)
  | _ =>
      raise (Exn AttributeError
               ([39] ++ type_name v ++ py "' object has no attribute 'strip'"))
  end.

(** ** The service object *)

Record GenerationConfig := {
  temperature : Q;
  top_p : Q;
  top_k : N;
  max_output_tokens : N
}.

Record SafetySetting := { category : str; threshold : str }.

(** What [generate_content] returns. [text] is a property: reading it
    yields a value or raises. *)
Record GenerateContentResponse := { text : outcome pyval }.

(** The client handle [genai.GenerativeModel]; [generate_content] is the
    blocking remote call. *)
Record GenerativeModel := {
  model_name : str;
  model_generation_config : GenerationConfig;
  model_safety_settings : list SafetySetting;
  generate_content : str -> outcome GenerateContentResponse
}.

Record GeminiService := {
  api_key : pyval;
  generation_config : GenerationConfig;
  safety_settings : list SafetySetting;
  model : GenerativeModel
}.

Definition placeholder_key : str := py "your_gemini_api_key_here".

Definition key_error_message : str :=
  py "GEMINI_API_KEY not found or not set properly in environment variables".

Section Construction.

(** [decouple.config]: the lookup of an option in the process
    environment; it yields the configured value or raises when the option
    is undefined. *)
Variable config : str -> outcome pyval.

(** The remote service behind a model name and its fixed parameters. *)
Variable remote :
  str -> GenerationConfig -> list SafetySetting ->
  str -> outcome GenerateContentResponse.

(** [genai.configure(api_key=k)] *)
Definition genai_configure (k : pyval) : M unit :=
  fun w =>
    (Some (Return tt),
     World (log w)
           (match k with PyStr s => Some s | _ => genai_api_key w end)).

(** [genai.GenerativeModel(model_name=.., generation_config=..,
    safety_settings=..)]; the constructor stores a name without ["/"]
    under the prefix ["models/"]. *)
Definition genai_GenerativeModel
    (name : str) (gc : GenerationConfig) (ss : list SafetySetting)
    : GenerativeModel :=
  {| model_name := if contains (py "/") name then name
                   else py "models/" ++ name;
     model_generation_config := gc;
     model_safety_settings := ss;
     generate_content := remote name gc ss |}.

(** [GeminiService.__init__] *)
Definition GeminiService_init : M GeminiService :=
  let! self_api_key := lift (config (py "GEMINI_API_KEY")) in
  if negb (truthy self_api_key)
     || py_eq self_api_key (PyStr placeholder_key)
  then raise (Exn ValueError key_error_message)
  else
    do! genai_configure self_api_key in
    let self_generation_config :=
      {| temperature := 7 # 10;
         top_p := 8 # 10;
         top_k := 40;
         max_output_tokens := 2048 |} in
    let self_safety_settings :=
      [ {| category := py "HARM_CATEGORY_HARASSMENT";
           threshold := py "BLOCK_MEDIUM_AND_ABOVE" |};
        {| category := py "HARM_CATEGORY_HATE_SPEECH";
           threshold := py "BLOCK_MEDIUM_AND_ABOVE" |};
        {| category := py "HARM_CATEGORY_SEXUALLY_EXPLICIT";
           threshold := py "BLOCK_MEDIUM_AND_ABOVE" |};
        {| category := py "HARM_CATEGORY_DANGEROUS_CONTENT";
           threshold := py "BLOCK_MEDIUM_AND_ABOVE" |} ] in
    let self_model :=
      genai_GenerativeModel (py "gemini-2.5-flash")
        self_generation_config self_safety_settings in
    do! logger INFO (py "Gemini AI service initialized successfully") in
    ret {| api_key := self_api_key;
           generation_config := self_generation_config;
           safety_settings := self_safety_settings;
           model := self_model |}.

End Construction.

(** ** [generate_response] *)

Definition prompt_default : str :=
  py "You are a helpful, friendly, and balanced AI assistant. " ++ [226; 353; 161] ++ py " You provide clear, accurate, and well-structured responses while maintaining a warm and approachable tone. You adapt your communication style to the user's needs, being comprehensive when detail is needed and concise when brevity is preferred. You're knowledgeable, reliable, and always aim to be genuinely helpful.".

Definition prompt_funny : str :=
  py "You are a hilarious AI assistant with a great sense of humor! " ++ [240; 376; 732; 8222] ++ py " You love making people laugh with witty jokes, puns, and funny observations. Keep your responses entertaining while still being helpful. Use emojis, wordplay, and light-hearted humor. Make conversations enjoyable and memorable! Don't be afraid to be silly and playful.".

Definition prompt_roasting : str :=
  py "You are a witty AI with a sharp tongue and a talent for playful roasting! " ++ [240; 376; 8221; 165] ++ py " You deliver clever burns and sarcastic remarks while keeping things fun and not mean-spirited. Your responses should be witty, a bit cheeky, and entertainingly sassy. Roast users playfully while still being helpful. Keep it fun, not hurtful! Think friendly banter, not actual insults.".

Definition prompt_precise : str :=
  py "You are a precise, efficient AI assistant. " ++ [240; 376; 381; 175] ++ py " You provide clear, direct, and concise answers. You focus on accuracy and getting straight to the point without unnecessary fluff. Your responses are well-structured, factual, and exactly what the user needs to know. Be professional and informative.".

Definition prompt_intellectual : str :=
  py "You are a highly intellectual AI with deep knowledge across many fields. " ++ [240; 376; 167; 160] ++ py " You provide thoughtful, analytical responses that explore topics in depth. You enjoy philosophical discussions, complex problem-solving, and sharing insights. Your responses demonstrate critical thinking, nuanced understanding, and scholarly depth. Reference relevant theories, concepts, and expert perspectives when appropriate.".

(** The dictionary [mood_prompts]. *)
Definition mood_prompts : gmap str str :=
  {[ py "default" := prompt_default;
     py "funny" := prompt_funny;
     py "roasting" := prompt_roasting;
     py "precise" := prompt_precise;
     py "intellectual" := prompt_intellectual ]}.

(** The keys of [mood_prompts]. *)
Definition recognized_moods : list str :=
  [py "default"; py "funny"; py "roasting"; py "precise"; py "intellectual"].

(** [mood_prompts.get(mood, mood_prompts["default"])] *)
Definition system_prompt_for (mood : str) : str :=
  dict_get mood_prompts mood (mood_prompts !!! py "default").

(** The line a history entry [msg] contributes:
    [f"{role}: {msg.get('content', '')}\n"] with
    [role = "User" if msg.get("is_user_message") else "Assistant"]. *)
Definition turn_line (msg : gmap str pyval) : str :=
  let role :=
    if truthy (dict_get msg (py "is_user_message") PyNone)
    then py "User" else py "Assistant" in
  role ++ py ": " ++ format (dict_get msg (py "content") (PyStr [])) ++ nl.

(** One pass of the loop body: [context += ...]. *)
Definition context_step (context : str) (msg : gmap str pyval) : str :=
  context ++ turn_line msg.

(** The context built from [conversation_history], which is [None] or a
    list of dictionaries. *)
Definition build_context
    (conversation_history : option (list (gmap str pyval))) : str :=
  match conversation_history with
  | Some history =>
      if list_bool history
      then fold_left context_step (slice_last 10 history) []
      else []
  | None => []
  end.

(** The two f-strings that prepare [full_prompt]. *)
Definition compose_prompt (system_prompt context message : str) : str :=
  if str_bool context then
    system_prompt ++ nl ++ nl ++ py "Conversation history:" ++ nl
    ++ context ++ nl ++ py "User: " ++ message ++ nl ++ py "Assistant:"
  else
    system_prompt ++ nl ++ nl ++ py "User: " ++ message ++ nl
    ++ py "Assistant:".

Definition full_prompt
    (message : str) (conversation_history : option (list (gmap str pyval)))
    (mood : str) : str :=
  compose_prompt (system_prompt_for mood)
                 (build_context conversation_history) message.

Definition empty_response_reply : str :=
  py "I apologize, but I couldn't generate a response at the moment. Please try again.".

Definition error_reply : str :=
  py "I'm sorry, but I encountered an error while processing your request. Please try again later.".

Definition generate_response
    (self : GeminiService) (message : str)
    (conversation_history : option (list (gmap str pyval))) (mood : str)
    : M str :=
  try_except
    (let system_prompt := system_prompt_for mood in
     let context := build_context conversation_history in
     let full_prompt := compose_prompt system_prompt context message in
     let! response :=
       to_thread (generate_content (model self)) full_prompt in
     let! response_text := lift (text response) in
     if truthy response_text then
       let! response_text := lift (text response) in
       method_strip response_text
     else
       do! logger WARNING (py "Empty response from Gemini API") in
       ret empty_response_reply)
    (fun e =>
       do! logger ERROR
             (py "Error generating response with Gemini: " ++ exn_str e) in
       ret error_reply).

(** ** [generate_chat_title] *)

Definition title_prompt (first_message : str) : str :=
  py "Generate a short, descriptive title (3-6 words) for a conversation that starts with this message: "
  ++ [34] ++ first_message ++ [34; 10; 10]
  ++ py "            The title should capture the main topic or theme. Return only the title, no additional text.".

Definition new_conversation : str := py "New Conversation".

Definition generate_chat_title
    (self : GeminiService) (first_message : str) : M str :=
  try_except
    (let prompt := title_prompt first_message in
     let! response := to_thread (generate_content (model self)) prompt in
     let! response_text := lift (text response) in
     if truthy response_text then
       let! response_text := lift (text response) in
       let! stripped := method_strip response_text in
       let title := replace_char 39 [] (replace_char 34 [] stripped) in
       ret (slice_upto 50 title)
     else
       ret new_conversation)
    (fun e =>
       do! logger ERROR (py "Error generating chat title: " ++ exn_str e) in
       ret new_conversation).

(** ** Conversation turns as the caller supplies them

    A turn [{is_user_message: b, content: c}] is a dictionary with these two
    keys. *)
Definition mk_turn (b : bool) (c : str) : gmap str pyval :=
  {[ py "is_user_message" := PyBool b; py "content" := PyStr c ]}.

(** ** The prompt as the specification words it

    System prompt, blank line, then (if the context is non-empty)
    ["Conversation history:\n"] followed by the rendered context, then
    ["User: <message>\nAssistant:"]. *)
Definition spec_full_prompt (system_prompt context message : str) : str :=
  system_prompt ++ nl ++ nl
  ++ (if str_bool context
      then py "Conversation history:" ++ nl ++ context else [])
  ++ py "User: " ++ message ++ nl ++ py "Assistant:".

(** ** Sample inputs

    Concrete services, histories and environments at which the properties
    below are exercised. *)

(** Eleven turns with contents ["0"], ["1"], ... (one character each),
    alternating between user and assistant. *)
Definition history_of_eleven : list (gmap str pyval) :=
  (fun i => mk_turn (Nat.even i) [48 + N.of_nat i]) <$> seq 0 11.

(** A service whose remote call always fails with a quota error. *)
Definition failing_model : GenerativeModel :=
  {| model_name := py "models/gemini-2.5-flash";
     model_generation_config :=
       {| temperature := 7 # 10; top_p := 8 # 10;
          top_k := 40; max_output_tokens := 2048 |};
     model_safety_settings := [];
     generate_content := fun _ =>
       Raise (Exn (LibraryError "google.api_core.exceptions.ResourceExhausted")
                  (py "429 quota exceeded")) |}.

(** A service whose remote call always answers with the given [text]. *)
Definition answering_model (t : outcome pyval) : GenerativeModel :=
  {| model_name := py "models/gemini-2.5-flash";
     model_generation_config :=
       {| temperature := 7 # 10; top_p := 8 # 10;
          top_k := 40; max_output_tokens := 2048 |};
     model_safety_settings := [];
     generate_content := fun _ => Return {| text := t |} |}.

(** A service object around a given model. *)
Definition service_of (m : GenerativeModel) : GeminiService :=
  {| api_key := PyStr (py "k");
     generation_config := model_generation_config m;
     safety_settings := model_safety_settings m;
     model := m |}.

(** Nothing logged, the library not yet configured. *)
Definition fresh_world : world := World [] None.

(** A remote result of 63 characters with embedded quotes and surrounding
    whitespace. *)
Definition quoted_long_text : str :=
  py "  " ++ [34] ++ py "Planning a two-week trip to Japan: Tokyo, Kyoto and"
  ++ [39] ++ py "Osaka" ++ [39; 34; 10].

(** An environment that defines the credential as [k], or not at all. *)
Definition config_of (k : option str) (name : str) : outcome pyval :=
  match k with
  | Some v => Return (PyStr v)
  | None =>
      Raise (Exn (LibraryError "decouple.UndefinedValueError")
               (name ++ py " not found. Declare it as envvar or define a default value."))
  end.

(** A remote service that answers every prompt with an empty text. *)
Definition silent_remote
    (name : str) (gc : GenerationConfig) (ss : list SafetySetting)
    (prompt : str) : outcome GenerateContentResponse :=
  Return {| text := Return (PyStr []) |}.

(** [s == s.strip()] decided on the ends of [s]: a string is trimmed when
    it is empty or neither its first nor its last character is whitespace. *)
Definition is_trimmed (s : str) : bool :=
  match head s, last s with
  | Some a, Some b => negb (isspace a) && negb (isspace b)
  | _, _ => true
  end.

(** The dictionary [self.generation_config] of [__init__]. *)
Definition fixed_generation_config : GenerationConfig :=
  {| temperature := 7 # 10;
     top_p := 8 # 10;
     top_k := 40;
     max_output_tokens := 2048 |}.

(** The list [self.safety_settings] of [__init__]. *)
Definition fixed_safety_settings : list SafetySetting :=
  [ {| category := py "HARM_CATEGORY_HARASSMENT";
       threshold := py "BLOCK_MEDIUM_AND_ABOVE" |};
    {| category := py "HARM_CATEGORY_HATE_SPEECH";
       threshold := py "BLOCK_MEDIUM_AND_ABOVE" |};
    {| category := py "HARM_CATEGORY_SEXUALLY_EXPLICIT";
       threshold := py "BLOCK_MEDIUM_AND_ABOVE" |};
    {| category := py "HARM_CATEGORY_DANGEROUS_CONTENT";
       threshold := py "BLOCK_MEDIUM_AND_ABOVE" |} ].

(** What follows the system prompt in the composed prompt. *)
Definition prompt_tail (context message : str) : str :=
  if str_bool context then
    nl ++ nl ++ py "Conversation history:" ++ nl
    ++ context ++ nl ++ py "User: " ++ message ++ nl ++ py "Assistant:"
  else
    nl ++ nl ++ py "User: " ++ message ++ nl ++ py "Assistant:".

(** A service whose awaited call is cancelled. *)
Definition cancelled_model : GenerativeModel :=
  {| model_name := py "models/gemini-2.5-flash";
     model_generation_config := fixed_generation_config;
     model_safety_settings := fixed_safety_settings;
     generate_content := fun _ => Raise (Exn CancelledError []) |}.

(** A remote service that echoes the prompt it is given, padded with
    whitespace. *)
Definition echo_remote
    (name : str) (gc : GenerationConfig) (ss : list SafetySetting)
    (prompt : str) : outcome GenerateContentResponse :=
  Return {| text := Return (PyStr (py " " ++ prompt ++ nl)) |}.


(** A service whose remote call raises [StopIteration]. *)
Definition stop_iteration_model : GenerativeModel :=
  {| model_name := py "models/gemini-2.5-flash";
     model_generation_config := fixed_generation_config;
     model_safety_settings := fixed_safety_settings;
     generate_content := fun _ => Raise (Exn StopIteration []) |}.

(** * Properties *)

(** Unfolds a call of the service down to the remote outcome it awaits. *)
Ltac py_unfold f :=
  unfold f, full_prompt in *; cbv zeta;
  unfold try_except, bind, to_thread, lift.

Ltac py_step :=
  cbv beta iota; unfold ret, raise, logger, method_strip; cbv beta iota.

(** ** What the [await] hands to the coroutine *)

Lemma to_thread_return {A B} (f : A -> outcome B) (x : A) (b : B) (w : world) :
  f x = Return b -> to_thread f x w = (Some (Return b), w).
Proof. intros H. unfold to_thread. by rewrite H. Qed.

Lemma to_thread_error {A B} (f : A -> outcome B) (x : A) (e : exn) (w : world) :
  f x = Raise e ->
  isinstance_Exception e = true ->
  exn_type e <> StopIteration ->
  exn_type e <> FuturesCancelledError ->
  exists e',
    to_thread f x w = (Some (Raise e'), w)
    /\ isinstance_Exception e' = true
    /\ exn_str e' = exn_str e.
Proof.
  intros H He Hs Hc. unfold to_thread. rewrite H.
  destruct (exn_type e) eqn:E; try congruence;
    try (exists e; by repeat split).
  exists (Exn InvalidStateError (exn_str e)). by repeat split.
Qed.

Lemma to_thread_non_error
    {A B} (f : A -> outcome B) (x : A) (e : exn) (w : world) :
  f x = Raise e ->
  isinstance_Exception e = false ->
  to_thread f x w = (Some (Raise e), w).
Proof.
  intros H He. unfold to_thread. rewrite H.
  unfold isinstance_Exception in He.
  destruct (exn_type e); try discriminate He; reflexivity.
Qed.

Lemma to_thread_futures_cancelled
    {A B} (f : A -> outcome B) (x : A) (e : exn) (w : world) :
  f x = Raise e ->
  exn_type e = FuturesCancelledError ->
  to_thread f x w = (Some (Raise (Exn CancelledError (exn_str e))), w).
Proof. intros H He. unfold to_thread. by rewrite H, He. Qed.

Lemma to_thread_stop_iteration
    {A B} (f : A -> outcome B) (x : A) (e : exn) (w : world) :
  f x = Raise e ->
  exn_type e = StopIteration ->
  to_thread f x w = (None, w).
Proof. intros H He. unfold to_thread. by rewrite H, He. Qed.

(** Unfolds a call of the service and keeps the [await] folded. *)
Ltac py_await f :=
  unfold f, full_prompt in *; cbv zeta; unfold try_except, bind.

(** ** Strings and slices *)

Lemma lstrip_whitespace (s : str) :
  Forall (fun c => isspace c = true) s -> lstrip s = [].
Proof.
  induction 1 as [|c s Hc _ IH]; simpl; [reflexivity|].
  rewrite Hc. exact IH.
Qed.

Lemma strip_whitespace (s : str) :
  Forall (fun c => isspace c = true) s -> strip s = [].
Proof.
  intros H. unfold strip, rstrip. rewrite (lstrip_whitespace s H).
  reflexivity.
Qed.





Lemma slice_last_split {A} (n : nat) (l : list A) :
  l = take (length l - n) l ++ slice_last n l.
Proof. unfold slice_last. by rewrite take_drop. Qed.

Lemma slice_last_length {A} (n : nat) (l : list A) :
  (n <= length l)%nat -> length (slice_last n l) = n.
Proof. intros H. unfold slice_last. rewrite length_drop. lia. Qed.

Lemma slice_last_short {A} (n : nat) (l : list A) :
  (length l <= n)%nat -> slice_last n l = l.
Proof.
  intros H. unfold slice_last.
  replace (length l - n)%nat with 0%nat by lia. reflexivity.
Qed.

Lemma startswith_spec (p s : str) :
  startswith p s = true <-> exists t, s = p ++ t.
Proof.
  revert s. induction p as [|a p IH]; intros s; simpl.
  - split; [intros _; by exists s | done].
  - destruct s as [|b s].
    + split; [done | intros [t Ht]; discriminate].
    + rewrite andb_true_iff, N.eqb_eq, IH. split.
      * intros [-> [t ->]]. by exists t.
      * intros [t Ht]. injection Ht as -> ->. split; [done | by exists t].
Qed.

Lemma contains_spec (p s : str) :
  contains p s = true <-> exists a b, s = a ++ p ++ b.
Proof.
  induction s as [|c s IH]; simpl.
  - rewrite orb_false_r, startswith_spec. split.
    + intros [t Ht]. by exists [], t.
    + intros [a [b Hab]]. destruct a; [by exists b | discriminate].
  - rewrite orb_true_iff, startswith_spec, IH. split.
    + intros [[t Ht] | [a [b ->]]]; [by exists [], t | by exists (c :: a), b].
    + intros [[|x a] [b Hab]]; [left; by exists b |].
      right. injection Hab as -> ->. by exists a, b.
Qed.

(** ** The rendered context *)

Lemma fold_context_step (l : list (gmap str pyval)) (acc : str) :
  fold_left context_step l acc = acc ++ concat (turn_line <$> l).
Proof.
  revert acc. induction l as [|msg l IH]; intros acc; simpl.
  - by rewrite app_nil_r.
  - rewrite IH. unfold context_step. by rewrite <- app_assoc.
Qed.

Lemma build_context_window (history : list (gmap str pyval)) :
  build_context (Some history) = concat (turn_line <$> slice_last 10 history).
Proof.
  unfold build_context. destruct history as [|msg history]; [reflexivity|].
  unfold list_bool. by rewrite fold_context_step.
Qed.

Lemma turn_line_nonempty (msg : gmap str pyval) : turn_line msg <> [].
Proof.
  unfold turn_line.
  destruct (truthy _); intros H; apply (f_equal length) in H;
    rewrite !length_app in H; vm_compute in H; discriminate.
Qed.

(** ** Mood selection *)

Lemma mood_prompts_default : mood_prompts !! py "default" = Some prompt_default.
Proof. vm_compute. reflexivity. Qed.

Lemma mood_prompts_unrecognized (mood : str) :
  mood ∉ recognized_moods -> mood_prompts !! mood = None.
Proof.
  intros H. unfold recognized_moods in H.
  repeat (apply not_elem_of_cons in H as [? H]).
  unfold mood_prompts.
  rewrite !lookup_insert_ne by congruence.
  apply lookup_singleton_ne. congruence.
Qed.

(** C3. Each of the five recognized mood tags selects its own template, and
    every other mood string selects the template of [default]. *)
Theorem mood_selects_template :
  system_prompt_for (py "default") = prompt_default
  /\ system_prompt_for (py "funny") = prompt_funny
  /\ system_prompt_for (py "roasting") = prompt_roasting
  /\ system_prompt_for (py "precise") = prompt_precise
  /\ system_prompt_for (py "intellectual") = prompt_intellectual
  /\ (forall mood : str,
        mood ∉ recognized_moods -> system_prompt_for mood = prompt_default)
  /\ (forall (message : str) history (mood : str),
        full_prompt message history mood =
        compose_prompt (system_prompt_for mood) (build_context history) message).
Proof.
  repeat split; try (vm_compute; reflexivity).
  intros mood H. unfold system_prompt_for, dict_get.
  rewrite (mood_prompts_unrecognized mood H). simpl.
  unfold lookup_total, map_lookup_total.
  by rewrite mood_prompts_default.
Qed.

Lemma mood_selects_template_witness :
(py "sleepy" ∉ recognized_moods)
  /\ system_prompt_for (py "sleepy") = prompt_default.
Proof.
  assert (H : py "sleepy" ∉ recognized_moods).
  { intros H. apply list_elem_of_In in H. vm_compute in H.
    repeat (destruct H as [H|H]; [discriminate H|]). exact H. }
  split; [exact H|].
  exact (proj1 (proj2 (proj2 (proj2 (proj2 (proj2
           mood_selects_template))))) (py "sleepy") H).
Defined.

(** ** History truncation *)

(** C4. Of a history with more than 10 entries, the rendered context holds
    the lines of exactly its last 10 entries, in their order; the entries
    before them contribute nothing. *)
Theorem history_truncation (history : list (gmap str pyval)) :
  (length history > 10)%nat ->
  exists older recent,
    history = older ++ recent
    /\ length recent = 10%nat
    /\ build_context (Some history) = concat (turn_line <$> recent).
Proof.
  intros H.
  exists (take (length history - 10) history), (slice_last 10 history).
  split; [apply slice_last_split|].
  split; [apply slice_last_length; lia|].
  apply build_context_window.
Qed.

Lemma history_truncation_witness :
  (length history_of_eleven > 10)%nat
  /\ exists older recent,
       history_of_eleven = older ++ recent
       /\ length recent = 10%nat
       /\ build_context (Some history_of_eleven)
          = concat (turn_line <$> recent).
Proof.
  assert (H : (length history_of_eleven > 10)%nat).
  { unfold history_of_eleven. rewrite length_fmap, length_seq. lia. }
  split; [exact H | exact (history_truncation history_of_eleven H)].
Defined.

(** ** Rendering of turns *)

Lemma turn_line_mk_turn (b : bool) (c : str) :
  turn_line (mk_turn b c) =
  (if b then py "User" else py "Assistant") ++ py ": " ++ c ++ nl.
Proof.
  unfold turn_line, mk_turn, dict_get.
  rewrite lookup_insert_eq.
  rewrite lookup_insert_ne by (vm_compute; discriminate).
  rewrite lookup_singleton_eq. reflexivity.
Qed.

(** C6. The history [{is_user_message: true, content: "A"},
    {is_user_message: false, content: "B"}] renders as
    ["User: A\nAssistant: B\n"]; in general a turn renders as
    ["User: <content>"] or ["Assistant: <content>"] according to
    [is_user_message], each line closed by a newline, and the context is the
    lines of the (last 10) turns in their original order. *)
Theorem context_rendering :
  build_context (Some [mk_turn true (py "A"); mk_turn false (py "B")])
  = py "User: A" ++ nl ++ py "Assistant: B" ++ nl
  /\ (forall (b : bool) (c : str),
        turn_line (mk_turn b c) =
        (if b then py "User" else py "Assistant") ++ py ": " ++ c ++ nl)
  /\ (forall history : list (gmap str pyval),
        build_context (Some history)
        = concat (turn_line <$> slice_last 10 history))
  /\ (forall history : list (gmap str pyval),
        (length history <= 10)%nat ->
        build_context (Some history) = concat (turn_line <$> history)).
Proof.
  split; [vm_compute; reflexivity|].
  split; [apply turn_line_mk_turn|].
  split; [apply build_context_window|].
  intros history H. rewrite build_context_window.
  by rewrite slice_last_short.
Qed.

Lemma context_rendering_witness :
  (length [mk_turn true (py "A"); mk_turn false (py "B")] <= 10)%nat
  /\ build_context (Some [mk_turn true (py "A"); mk_turn false (py "B")])
     = concat (turn_line <$> [mk_turn true (py "A"); mk_turn false (py "B")]).
Proof.
  assert (H : (length [mk_turn true (py "A"); mk_turn false (py "B")]
               <= 10)%nat) by (simpl; lia).
  split; [exact H|].
  exact (proj2 (proj2 (proj2 context_rendering)) _ H).
Defined.

(** ** Prompt composition *)

Lemma build_context_empty_history :
  build_context None = [] /\ build_context (Some []) = [].
Proof. split; reflexivity. Qed.

Lemma build_context_nonempty (history : list (gmap str pyval)) :
  history <> [] -> str_bool (build_context (Some history)) = true.
Proof.
  intros H. rewrite build_context_window.
  rewrite (slice_last_split 10 history) in H.
  destruct (slice_last 10 history) as [|msg rest] eqn:E.
  - exfalso. apply H. rewrite app_nil_r.
    unfold slice_last in E. apply (f_equal length) in E.
    rewrite length_drop in E. simpl in E.
    destruct history as [|x l]; [reflexivity | simpl in E; lia].
  - simpl. pose proof (turn_line_nonempty msg) as Hne.
    destruct (turn_line msg); [congruence | reflexivity].
Qed.

(** The remote call is made on the composed prompt and on nothing else: two
    services whose models answer it alike give the same reply. *)
Lemma generate_response_dispatch
    (self self' : GeminiService) (message : str)
    (history : option (list (gmap str pyval))) (mood : str) :
  generate_content (model self) (full_prompt message history mood)
  = generate_content (model self') (full_prompt message history mood) ->
  generate_response self message history mood
  = generate_response self' message history mood.
Proof.
  intros H. unfold generate_response, full_prompt in *. cbv zeta.
  unfold to_thread. by rewrite H.
Qed.

(** C5, as the specification words it, fails: with one turn of history the
    composed prompt has a newline between the rendered context and the
    ["User: "] line that the worded composition lacks. *)
Lemma spec_prompt_composition_fails :
  full_prompt (py "Hi") (Some [mk_turn true (py "A")]) (py "default")
  <> spec_full_prompt (system_prompt_for (py "default"))
       (build_context (Some [mk_turn true (py "A")])) (py "Hi").
Proof.
  intros H. apply (f_equal length) in H. vm_compute in H. discriminate H.
Qed.

(** C5, amended. The composed prompt is the system prompt, a blank line,
    then, if the rendered context is non-empty, ["Conversation history:\n"],
    the rendered context and one more newline, then
    ["User: <message>\nAssistant:"] with nothing after it. For message
    ["Hi"], empty history and default mood it ends with
    ["User: Hi\nAssistant:"] and ["Conversation history:"] occurs nowhere
    in it. *)
Theorem prompt_composition :
  (forall (message : str) history (mood : str),
     full_prompt message history mood =
     system_prompt_for mood ++ nl ++ nl
     ++ (if str_bool (build_context history)
         then py "Conversation history:" ++ nl
              ++ build_context history ++ nl
         else [])
     ++ py "User: " ++ message ++ nl ++ py "Assistant:")
  /\ full_prompt (py "Hi") (Some []) (py "default")
     = prompt_default ++ nl ++ nl ++ py "User: Hi" ++ nl ++ py "Assistant:"
  /\ endswith (py "User: Hi" ++ nl ++ py "Assistant:")
       (full_prompt (py "Hi") (Some []) (py "default")) = true
  /\ ~ (exists a b,
          full_prompt (py "Hi") (Some []) (py "default")
          = a ++ py "Conversation history:" ++ b).
Proof.
  split; [|split; [|split]].
  - intros message history mood. unfold full_prompt, compose_prompt.
    destruct (str_bool (build_context history));
      by rewrite <- ?app_assoc.
  - vm_compute. reflexivity.
  - vm_compute. reflexivity.
  - intros H. apply contains_spec in H. vm_compute in H. discriminate H.
Qed.

(** ** Containment of remote failures in [generate_response] *)




(** When the remote call raises [StopIteration] the [await] is never
    resumed: the operation neither returns nor raises, and logs nothing. *)
Lemma generate_response_never_resumed
    (self : GeminiService) (message : str)
    (history : option (list (gmap str pyval))) (mood : str)
    (e : exn) (w : world) :
  generate_content (model self) (full_prompt message history mood) = Raise e ->
  exn_type e = StopIteration ->
  generate_response self message history mood w = (None, w).
Proof.
  intros Hcall He. py_await generate_response.
  by rewrite (to_thread_stop_iteration _ _ e w Hcall He).
Qed.

(** Reading [response.text] may itself raise; that too ends in the error
    reply. *)
Lemma generate_response_text_error
    (self : GeminiService) (message : str)
    (history : option (list (gmap str pyval))) (mood : str)
    (r : GenerateContentResponse) (e : exn) (w : world) :
  generate_content (model self) (full_prompt message history mood) = Return r ->
  text r = Raise e ->
  isinstance_Exception e = true ->
  fst (generate_response self message history mood w)
  = Some (Return error_reply).
Proof.
  intros Hcall Ht He.
  py_unfold generate_response. rewrite Hcall. py_step. rewrite Ht.
  py_step. rewrite He. reflexivity.
Qed.

(** [generate_response] returns a string whenever what the remote call
    raises, if anything, is an error that the [await] hands on as an error,
    and what reading the text raises, if anything, is an error. *)
Lemma generate_response_returns
    (self : GeminiService) (message : str)
    (history : option (list (gmap str pyval))) (mood : str) (w : world) :
  (forall e,
     generate_content (model self) (full_prompt message history mood) = Raise e ->
     isinstance_Exception e = true
     /\ exn_type e <> StopIteration
     /\ exn_type e <> FuturesCancelledError) ->
  (forall r e,
     generate_content (model self) (full_prompt message history mood) = Return r ->
     text r = Raise e -> isinstance_Exception e = true) ->
  exists reply w', generate_response self message history mood w
                   = (Some (Return reply), w').
Proof.
  intros Hcall Htext.
  destruct (generate_content (model self) (full_prompt message history mood))
    as [r|e] eqn:Ec.
  - py_unfold generate_response. rewrite Ec. py_step.
    specialize (Htext r).
    destruct (text r) as [v|e] eqn:Et; py_step.
    + destruct v as [|[|]|[|c s]]; simpl; eauto.
    + rewrite (Htext e eq_refl eq_refl). eauto.
  - destruct (Hcall e eq_refl) as [He [Hs Hc]].
    destruct (to_thread_error _ _ e w Ec He Hs Hc) as [e' [Ht [He' _]]].
    py_await generate_response. rewrite Ht. py_step. rewrite He'. eauto.
Qed.

(** A non-empty text is returned with its leading and trailing whitespace
    trimmed, and nothing is logged. *)
Lemma generate_response_genuine_text
    (self : GeminiService) (message : str)
    (history : option (list (gmap str pyval))) (mood : str)
    (r : GenerateContentResponse) (s : str) (w : world) :
  generate_content (model self) (full_prompt message history mood) = Return r ->
  text r = Return (PyStr s) ->
  s <> [] ->
  generate_response self message history mood w = (Some (Return (strip s)), w).
Proof.
  intros Hcall Ht Hne.
  py_unfold generate_response. rewrite Hcall. py_step. rewrite Ht.
  py_step. destruct s as [|c s]; [congruence|]. simpl truthy. py_step.
  reflexivity.
Qed.

(** C2. If the remote call succeeds and the text of the response is empty
    or missing (the empty string or [None]), [generate_response] logs a
    warning and returns the fixed reply for an empty response, which is not
    the error reply. *)
Theorem generate_response_empty_text
    (self : GeminiService) (message : str)
    (history : option (list (gmap str pyval))) (mood : str)
    (r : GenerateContentResponse) (v : pyval) (w : world) :
  generate_content (model self) (full_prompt message history mood) = Return r ->
  text r = Return v ->
  v = PyStr [] \/ v = PyNone ->
  generate_response self message history mood w =
  (Some (Return empty_response_reply),
   World (log w ++ [(WARNING, py "Empty response from Gemini API")])
         (genai_api_key w))
  /\ empty_response_reply =
     py "I apologize, but I couldn't generate a response at the moment. Please try again."
  /\ empty_response_reply <> error_reply.
Proof.
  intros Hcall Ht Hv. split; [|split; [reflexivity|]].
  - py_unfold generate_response. rewrite Hcall. py_step. rewrite Ht.
    py_step. destruct Hv as [-> | ->]; reflexivity.
  - intros H. vm_compute in H. discriminate H.
Qed.

Lemma generate_response_empty_text_witness :
  fst (generate_response (service_of (answering_model (Return (PyStr []))))
         (py "Hi") None (py "default") fresh_world)
  = Some (Return empty_response_reply).
Proof.
  exact (f_equal fst
    (proj1 (generate_response_empty_text
       (service_of (answering_model (Return (PyStr []))))
       (py "Hi") None (py "default") _ (PyStr []) fresh_world
       eq_refl eq_refl (or_introl eq_refl)))).
Defined.

(** C10. A response whose text is non-empty but all whitespace passes the
    non-emptiness test and is then trimmed: [generate_response] returns the
    empty string, which is neither of the two fixed replies. *)
Theorem generate_response_whitespace_text
    (self : GeminiService) (message : str)
    (history : option (list (gmap str pyval))) (mood : str)
    (r : GenerateContentResponse) (s : str) (w : world) :
  generate_content (model self) (full_prompt message history mood) = Return r ->
  text r = Return (PyStr s) ->
  s <> [] ->
  Forall (fun c => isspace c = true) s ->
  generate_response self message history mood w = (Some (Return []), w)
  /\ [] <> empty_response_reply
  /\ [] <> error_reply.
Proof.
  intros Hcall Ht Hne Hws. split; [|split; discriminate].
  py_unfold generate_response. rewrite Hcall. py_step. rewrite Ht.
  py_step. destruct s as [|c s]; [congruence|]. simpl truthy. py_step.
  by rewrite (strip_whitespace _ Hws).
Qed.

Lemma generate_response_whitespace_text_witness :
  generate_response (service_of (answering_model (Return (PyStr (py "  ")))))
    (py "Hi") None (py "default") fresh_world
  = (Some (Return []), fresh_world).
Proof.
  refine (proj1 (generate_response_whitespace_text
    (service_of (answering_model (Return (PyStr (py "  ")))))
    (py "Hi") None (py "default") _ (py "  ") fresh_world
    eq_refl eq_refl _ _)).
  - discriminate.
  - repeat constructor.
Defined.

(** ** [generate_chat_title] *)







(** Reading the text may raise, and a truthy text that is not a string has
    no [strip]: both end in the fallback title as well. *)
Lemma generate_chat_title_returns
    (self : GeminiService) (first_message : str) (w : world) :
  (forall e,
     generate_content (model self) (title_prompt first_message) = Raise e ->
     isinstance_Exception e = true
     /\ exn_type e <> StopIteration
     /\ exn_type e <> FuturesCancelledError) ->
  (forall r e,
     generate_content (model self) (title_prompt first_message) = Return r ->
     text r = Raise e -> isinstance_Exception e = true) ->
  exists title w', generate_chat_title self first_message w
                   = (Some (Return title), w').
Proof.
  intros Hcall Htext.
  destruct (generate_content (model self) (title_prompt first_message))
    as [r|e] eqn:Ec.
  - py_unfold generate_chat_title. rewrite Ec. py_step.
    specialize (Htext r).
    destruct (text r) as [v|e] eqn:Et; py_step.
    + destruct v as [|[|]|[|c s]]; simpl; eauto.
    + rewrite (Htext e eq_refl eq_refl). eauto.
  - destruct (Hcall e eq_refl) as [He [Hs Hc]].
    destruct (to_thread_error _ _ e w Ec He Hs Hc) as [e' [Ht [He' _]]].
    py_await generate_chat_title. rewrite Ht. py_step. rewrite He'. eauto.
Qed.

(** ** Construction *)

Section ConstructionGuard.

Variable config : str -> outcome pyval.
Variable remote :
  str -> GenerationConfig -> list SafetySetting ->
  str -> outcome GenerateContentResponse.

Lemma init_guard_rejects (v : pyval) (w : world) :
  config (py "GEMINI_API_KEY") = Return v ->
  v = PyNone \/ v = PyStr [] \/ v = PyStr placeholder_key ->
  GeminiService_init config remote w
  = (Some (Raise (Exn ValueError key_error_message)), w).
Proof.
  intros Hc Hv. unfold GeminiService_init, bind, lift. rewrite Hc.
  destruct Hv as [-> | [-> | ->]]; reflexivity.
Qed.

Lemma init_guard_accepts (k : str) (w : world) :
  config (py "GEMINI_API_KEY") = Return (PyStr k) ->
  k <> [] -> k <> placeholder_key ->
  exists self,
    GeminiService_init config remote w
    = (Some (Return self),
       World (log w
              ++ [(INFO, py "Gemini AI service initialized successfully")])
             (Some k))
    /\ api_key self = PyStr k
    /\ model_name (model self) = py "models/gemini-2.5-flash".
Proof.
  intros Hc Hne Hph. unfold GeminiService_init, bind, lift. rewrite Hc.
  assert (Hg : negb (truthy (PyStr k))
               || py_eq (PyStr k) (PyStr placeholder_key) = false).
  { apply orb_false_iff. split.
    - destruct k; [congruence | reflexivity].
    - simpl. by apply bool_decide_eq_false. }
  rewrite Hg. eexists. split; [reflexivity|].
  split; [reflexivity | vm_compute; reflexivity].
Qed.

End ConstructionGuard.

(** C9. Construction raises when the credential is absent (the lookup
    raises, or yields [None]), empty, or the placeholder
    ["your_gemini_api_key_here"]: the lookup's own exception in the first
    case, the guard's [ValueError] in the others. With any other credential
    the guard is passed and construction yields the service. *)
Theorem construction_guard
    (config : str -> outcome pyval)
    (remote : str -> GenerationConfig -> list SafetySetting ->
              str -> outcome GenerateContentResponse)
    (w : world) :
  (forall e,
     config (py "GEMINI_API_KEY") = Raise e ->
     GeminiService_init config remote w = (Some (Raise e), w))
  /\ (forall v,
        config (py "GEMINI_API_KEY") = Return v ->
        v = PyNone \/ v = PyStr [] \/ v = PyStr placeholder_key ->
        GeminiService_init config remote w
        = (Some (Raise (Exn ValueError key_error_message)), w))
  /\ (forall k,
        config (py "GEMINI_API_KEY") = Return (PyStr k) ->
        k <> [] -> k <> placeholder_key ->
        exists self w',
          GeminiService_init config remote w = (Some (Return self), w')
          /\ api_key self = PyStr k)
  /\ placeholder_key = py "your_gemini_api_key_here".
Proof.
  split; [|split; [|split; [|reflexivity]]].
  - intros e Hc. unfold GeminiService_init, bind, lift. by rewrite Hc.
  - intros v. apply init_guard_rejects.
  - intros k Hc Hne Hph.
    destruct (init_guard_accepts config remote k w Hc Hne Hph)
      as [self [Hinit [Hkey _]]].
    eauto.
Qed.

Lemma construction_guard_witness :
  GeminiService_init (config_of (Some placeholder_key)) silent_remote
    fresh_world
  = (Some (Raise (Exn ValueError key_error_message)), fresh_world)
  /\ exists self w',
       GeminiService_init (config_of (Some (py "AIzaSy-example")))
         silent_remote fresh_world = (Some (Return self), w')
       /\ api_key self = PyStr (py "AIzaSy-example").
Proof.
  split.
  - refine (proj1 (proj2 (construction_guard
              (config_of (Some placeholder_key)) silent_remote fresh_world))
              (PyStr placeholder_key) eq_refl _).
    right. right. reflexivity.
  - refine (proj1 (proj2 (proj2 (construction_guard
              (config_of (Some (py "AIzaSy-example"))) silent_remote
              fresh_world))) (py "AIzaSy-example") eq_refl _ _).
    + vm_compute. discriminate.
    + vm_compute. discriminate.
Defined.

(** ** Runs on concrete inputs *)

Example strip_unicode_whitespace :
  strip ([160; 32] ++ py "Hello there!" ++ [10; 8195]) = py "Hello there!".
Proof. vm_compute. reflexivity. Qed.

Example reply_is_trimmed_text :
  generate_response
    (service_of (answering_model (Return (PyStr (py "  Hello there!" ++ nl)))))
    (py "Hi") None (py "default") fresh_world
  = (Some (Return (py "Hello there!")), fresh_world).
Proof. vm_compute. reflexivity. Qed.

Example reply_when_text_raises :
  fst (generate_response
         (service_of (answering_model
            (Raise (Exn ValueError (py "response has no valid part")))))
         (py "Hi") None (py "default") fresh_world)
  = Some (Return error_reply).
Proof. vm_compute. reflexivity. Qed.

Example context_of_eleven_turns :
  build_context (Some history_of_eleven)
  = py "Assistant: 1" ++ nl ++ py "User: 2" ++ nl
    ++ py "Assistant: 3" ++ nl ++ py "User: 4" ++ nl
    ++ py "Assistant: 5" ++ nl ++ py "User: 6" ++ nl
    ++ py "Assistant: 7" ++ nl ++ py "User: 8" ++ nl
    ++ py "Assistant: 9" ++ nl ++ py "User: :" ++ nl.
Proof. vm_compute. reflexivity. Qed.

Example prompt_with_one_turn :
  full_prompt (py "Hi") (Some [mk_turn true (py "A")]) (py "precise")
  = prompt_precise ++ nl ++ nl ++ py "Conversation history:" ++ nl
    ++ py "User: A" ++ nl ++ nl ++ py "User: Hi" ++ nl ++ py "Assistant:".
Proof. vm_compute. reflexivity. Qed.

Example title_of_quoted_long_text :
  fst (generate_chat_title
         (service_of (answering_model (Return (PyStr quoted_long_text))))
         (py "Help me plan a trip") fresh_world)
  = Some (Return (py "Planning a two-week trip to Japan: Tokyo, Kyoto an")).
Proof. vm_compute. reflexivity. Qed.

Example title_prompt_length :
  length (title_prompt (py "abc")) = 209%nat.
Proof. vm_compute. reflexivity. Qed.

Example construction_without_credential :
  exists e,
    fst (GeminiService_init (config_of None) silent_remote fresh_world)
    = Some (Raise e)
    /\ exn_type e = LibraryError "decouple.UndefinedValueError".
Proof. eexists. split; vm_compute; reflexivity. Qed.

Example construction_with_empty_credential :
  fst (GeminiService_init (config_of (Some [])) silent_remote fresh_world)
  = Some (Raise (Exn ValueError key_error_message)).
Proof. vm_compute. reflexivity. Qed.

Example reply_never_comes_on_stop_iteration :
  generate_response (service_of stop_iteration_model) (py "Hi") None
    (py "default") fresh_world = (None, fresh_world)
  /\ generate_chat_title (service_of stop_iteration_model) (py "Hi")
       fresh_world = (None, fresh_world).
Proof. split; vm_compute; reflexivity. Qed.

Example invalid_state_error_is_contained :
  generate_response
    (service_of
       {| model_name := py "models/gemini-2.5-flash";
          model_generation_config := fixed_generation_config;
          model_safety_settings := fixed_safety_settings;
          generate_content := fun _ =>
            Raise (Exn FuturesInvalidStateError (py "i")) |})
    (py "Hi") None (py "default") fresh_world
  = (Some (Return error_reply),
     World [(ERROR, py "Error generating response with Gemini: i")] None).
Proof. vm_compute. reflexivity. Qed.

(** * Further properties of the service *)

(** ** Trimming *)

Lemma lstrip_split (s : str) :
  exists p, s = p ++ lstrip s /\ Forall (fun c => isspace c = true) p.
Proof.
  induction s as [|c s [p [Hs Hp]]]; simpl.
  - by exists [].
  - destruct (isspace c) eqn:E.
    + exists (c :: p). split; [simpl; congruence | by constructor].
    + by exists [].
Qed.

Lemma lstrip_head (s : str) (c : char) :
  head (lstrip s) = Some c -> isspace c = false.
Proof.
  induction s as [|a s IH]; simpl; [discriminate|].
  destruct (isspace a) eqn:E; [exact IH|].
  simpl. intros [= <-]. exact E.
Qed.

Lemma last_rev (s : str) : last (rev s) = head s.
Proof. destruct s as [|c s]; [reflexivity|]. simpl. apply last_snoc. Qed.

Lemma head_rev (s : str) : head (rev s) = last s.
Proof. rewrite <- (rev_involutive s) at 2. by rewrite last_rev. Qed.

Lemma rstrip_split (s : str) :
  exists q, s = rstrip s ++ q /\ Forall (fun c => isspace c = true) q.
Proof.
  unfold rstrip. destruct (lstrip_split (rev s)) as [p [Hs Hp]].
  exists (rev p). split; [|by apply Forall_rev].
  rewrite <- rev_app_distr, <- Hs. by rewrite rev_involutive.
Qed.

Lemma rstrip_last (s : str) (c : char) :
  last (rstrip s) = Some c -> isspace c = false.
Proof. unfold rstrip. rewrite last_rev. apply lstrip_head. Qed.

Lemma strip_split (s : str) :
  exists p q,
    s = p ++ strip s ++ q
    /\ Forall (fun c => isspace c = true) p
    /\ Forall (fun c => isspace c = true) q.
Proof.
  unfold strip.
  destruct (lstrip_split s) as [p [Hs Hp]].
  destruct (rstrip_split (lstrip s)) as [q [Ht Hq]].
  exists p, q. split; [|done]. by rewrite <- Ht.
Qed.

Lemma strip_is_trimmed (s : str) : is_trimmed (strip s) = true.
Proof.
  unfold is_trimmed.
  destruct (head (strip s)) as [a|] eqn:Ha; [|reflexivity].
  destruct (last (strip s)) as [b|] eqn:Hb; [|reflexivity].
  apply andb_true_iff. split; apply negb_true_iff.
  - unfold strip in Ha.
    destruct (rstrip_split (lstrip s)) as [q [Ht _]].
    apply (lstrip_head s). rewrite Ht.
    destruct (rstrip (lstrip s)); [discriminate | exact Ha].
  - exact (rstrip_last _ _ Hb).
Qed.

Lemma strip_of_trimmed (s : str) : is_trimmed s = true -> strip s = s.
Proof.
  unfold is_trimmed. destruct s as [|c s]; [reflexivity|].
  destruct (last (c :: s)) as [b|] eqn:Hb.
  2:{ apply last_None in Hb. discriminate. }
  cbn [head]. intros H. apply andb_true_iff in H as [Hc Hl].
  apply negb_true_iff in Hc, Hl.
  unfold strip. cbn [lstrip]. rewrite Hc. unfold rstrip.
  rewrite <- head_rev in Hb.
  destruct (rev (c :: s)) as [|d u] eqn:E; [discriminate|].
  injection Hb as ->. cbn [lstrip]. rewrite Hl, <- E.
  apply rev_involutive.
Qed.

Lemma replace_char_app (old : char) (new s t : str) :
  replace_char old new (s ++ t)
  = replace_char old new s ++ replace_char old new t.
Proof.
  induction s as [|c s IH]; simpl; [reflexivity|].
  by rewrite IH, app_assoc.
Qed.

Lemma replace_char_absent (old : char) (new s : str) :
  old ∉ s -> replace_char old new s = s.
Proof.
  induction s as [|c s IH]; simpl; [reflexivity|].
  intros H. apply not_elem_of_cons in H as [Hne Hs].
  destruct (N.eqb_spec c old) as [->|_]; [congruence|].
  simpl. by rewrite IH.
Qed.

Lemma replace_quotes_only (s : str) :
  Forall (fun c => c = 34 \/ c = 39) s ->
  replace_char 39 [] (replace_char 34 [] s) = [].
Proof.
  induction 1 as [|c s Hc _ IH]; [reflexivity|].
  destruct Hc as [-> | ->]; simpl; exact IH.
Qed.


(** ** The outcomes of [generate_response] *)

Lemma world_eta (w : world) : World (log w) (genai_api_key w) = w.
Proof. by destruct w. Qed.

(** A run that logged one record, and a run that logged none. *)
Ltac log_one :=
  eexists _, [_]; split; [reflexivity|];
  split; [simpl; lia | repeat constructor; simpl; tauto].

Ltac log_none Hw :=
  eexists _, []; rewrite Hw; split; [reflexivity|];
  split; [simpl; lia | constructor].

(** X1. A non-empty text comes back as the reply with exactly its leading
    and trailing whitespace removed: the text is whitespace, the reply,
    whitespace; the reply neither starts nor ends with whitespace; and
    nothing is logged. *)
Theorem genuine_reply_is_trimmed_text
    (self : GeminiService) (message : str)
    (history : option (list (gmap str pyval))) (mood : str)
    (r : GenerateContentResponse) (s : str) (w : world) :
  generate_content (model self) (full_prompt message history mood) = Return r ->
  text r = Return (PyStr s) ->
  s <> [] ->
  exists reply p q,
    generate_response self message history mood w = (Some (Return reply), w)
    /\ s = p ++ reply ++ q
    /\ Forall (fun c => isspace c = true) p
    /\ Forall (fun c => isspace c = true) q
    /\ is_trimmed reply = true.
Proof.
  intros Hcall Ht Hne.
  destruct (strip_split s) as [p [q [Hs [Hp Hq]]]].
  exists (strip s), p, q.
  split; [|split; [exact Hs | split; [exact Hp | split; [exact Hq|]]]].
  - py_unfold generate_response. rewrite Hcall. py_step. rewrite Ht.
    py_step. destruct s as [|c s]; [congruence|]. simpl truthy. py_step.
    reflexivity.
  - apply strip_is_trimmed.
Qed.

Lemma genuine_reply_is_trimmed_text_witness :
  exists reply p q,
    generate_response
      (service_of (answering_model (Return (PyStr (py "  Hello there!" ++ nl)))))
      (py "Hi") None (py "default") fresh_world = (Some (Return reply), fresh_world)
    /\ py "  Hello there!" ++ nl = p ++ reply ++ q
    /\ Forall (fun c => isspace c = true) p
    /\ Forall (fun c => isspace c = true) q
    /\ is_trimmed reply = true.
Proof.
  refine (genuine_reply_is_trimmed_text
    (service_of (answering_model (Return (PyStr (py "  Hello there!" ++ nl)))))
    (py "Hi") None (py "default") _ (py "  Hello there!" ++ nl) fresh_world
    eq_refl eq_refl _).
  vm_compute. discriminate.
Defined.



(** X3. What the awaited call raises that is not an [Exception] (a
    cancellation, a keyboard interrupt, a system exit) is not caught: both
    operations raise it to the caller and log nothing. *)
Theorem non_errors_propagate
    (self : GeminiService) (message : str)
    (history : option (list (gmap str pyval))) (mood : str)
    (first_message : str) (e : exn) (w : world) :
  isinstance_Exception e = false ->
  (generate_content (model self) (full_prompt message history mood) = Raise e ->
   generate_response self message history mood w = (Some (Raise e), w))
  /\ (generate_content (model self) (title_prompt first_message) = Raise e ->
      generate_chat_title self first_message w = (Some (Raise e), w)).
Proof.
  intros He. split; intros Hcall.
  - py_await generate_response.
    rewrite (to_thread_non_error _ _ e w Hcall He). py_step. by rewrite He.
  - py_await generate_chat_title.
    rewrite (to_thread_non_error _ _ e w Hcall He). py_step. by rewrite He.
Qed.

Lemma non_errors_propagate_witness :
  generate_response (service_of cancelled_model) (py "Hi") None
    (py "default") fresh_world
  = (Some (Raise (Exn CancelledError [])), fresh_world)
  /\ generate_chat_title (service_of cancelled_model) (py "Hi") fresh_world
     = (Some (Raise (Exn CancelledError [])), fresh_world).
Proof.
  pose proof (non_errors_propagate (service_of cancelled_model)
                (py "Hi") None (py "default") (py "Hi")
                (Exn CancelledError []) fresh_world eq_refl) as [H1 H2].
  split; [exact (H1 eq_refl) | exact (H2 eq_refl)].
Defined.



(** X5. Neither operation touches the library's configured key or the
    records already logged: [generate_response] appends at most one record,
    a warning or an error, and [generate_chat_title] at most one error
    record. *)
Theorem operations_only_append_to_log
    (self : GeminiService) (message : str)
    (history : option (list (gmap str pyval))) (mood : str)
    (first_message : str) (w : world) :
  (exists out added,
     generate_response self message history mood w
     = (out, World (log w ++ added) (genai_api_key w))
     /\ (length added <= 1)%nat
     /\ Forall (fun rec => fst rec = WARNING \/ fst rec = ERROR) added)
  /\ (exists out added,
        generate_chat_title self first_message w
        = (out, World (log w ++ added) (genai_api_key w))
        /\ (length added <= 1)%nat
        /\ Forall (fun rec => fst rec = ERROR) added).
Proof.
  assert (Hw : World (log w ++ []) (genai_api_key w) = w)
    by (rewrite app_nil_r; apply world_eta).
  split.
  - py_unfold generate_response.
    destruct (generate_content _ _) as [r|e]; py_step.
    + destruct (text r) as [v|e]; py_step.
      * destruct v as [|[|]|[|c s]]; simpl truthy; py_step;
          first [log_one | log_none Hw].
      * destruct (isinstance_Exception e); py_step;
          first [log_one | log_none Hw].
    + destruct (exn_type e) eqn:E; py_step;
        try (unfold isinstance_Exception; rewrite E); py_step;
        first [log_one | log_none Hw].
  - py_unfold generate_chat_title.
    destruct (generate_content _ _) as [r|e]; py_step.
    + destruct (text r) as [v|e]; py_step.
      * destruct v as [|[|]|[|c s]]; simpl truthy; py_step;
          first [log_one | log_none Hw].
      * destruct (isinstance_Exception e); py_step;
          first [log_one | log_none Hw].
    + destruct (exn_type e) eqn:E; py_step;
        try (unfold isinstance_Exception; rewrite E); py_step;
        first [log_one | log_none Hw].
Qed.

(** ** The history window and the prompt *)

Lemma slice_last_app {A} (n : nat) (older recent : list A) :
  (n <= length recent)%nat ->
  slice_last n (older ++ recent) = slice_last n recent.
Proof.
  intros H. unfold slice_last. rewrite length_app.
  rewrite drop_app_ge by lia. f_equal. lia.
Qed.

Lemma full_prompt_tail
    (message : str) (history : option (list (gmap str pyval))) (mood : str) :
  full_prompt message history mood
  = system_prompt_for mood ++ prompt_tail (build_context history) message.
Proof.
  unfold full_prompt, compose_prompt, prompt_tail.
  destruct (str_bool (build_context history)); by rewrite <- ?app_assoc.
Qed.

Lemma system_prompt_recognized (mood : str) :
  mood ∈ recognized_moods ->
  mood_prompts !! mood = Some (system_prompt_for mood).
Proof.
  intros H. unfold recognized_moods in H.
  repeat (apply elem_of_cons in H as [-> | H]; [vm_compute; reflexivity|]).
  by apply elem_of_nil in H.
Qed.

(** X6. Only the last 10 turns reach the remote call: putting any older
    turns in front of a history of at least 10 turns changes neither the
    composed prompt nor what [generate_response] does. *)
Theorem older_turns_do_not_matter
    (self : GeminiService) (message : str)
    (older recent : list (gmap str pyval)) (mood : str) :
  (10 <= length recent)%nat ->
  full_prompt message (Some (older ++ recent)) mood
  = full_prompt message (Some recent) mood
  /\ generate_response self message (Some (older ++ recent)) mood
     = generate_response self message (Some recent) mood.
Proof.
  intros H.
  assert (Hc : build_context (Some (older ++ recent))
               = build_context (Some recent)).
  { rewrite !build_context_window. by rewrite slice_last_app. }
  split.
  - unfold full_prompt. by rewrite Hc.
  - unfold generate_response. by rewrite Hc.
Qed.

Lemma older_turns_do_not_matter_witness :
  full_prompt (py "Hi")
    (Some ([mk_turn true (py "forgotten")] ++ drop 1 history_of_eleven))
    (py "funny")
  = full_prompt (py "Hi") (Some (drop 1 history_of_eleven)) (py "funny").
Proof.
  refine (proj1 (older_turns_do_not_matter (service_of failing_model)
            (py "Hi") [mk_turn true (py "forgotten")]
            (drop 1 history_of_eleven) (py "funny") _)).
  vm_compute. lia.
Defined.

(** X7. The history section is present exactly when the history has a
    turn: every non-empty history, even one whose turns have empty content,
    gives the prompt with ["Conversation history:"], the context and a blank
    line; no history and the empty history both give the prompt without
    it. *)
Theorem history_section_presence (message : str) (mood : str) :
  (forall history : list (gmap str pyval),
     history <> [] ->
     full_prompt message (Some history) mood
     = system_prompt_for mood ++ nl ++ nl ++ py "Conversation history:" ++ nl
       ++ concat (turn_line <$> slice_last 10 history) ++ nl
       ++ py "User: " ++ message ++ nl ++ py "Assistant:")
  /\ full_prompt message None mood
     = system_prompt_for mood ++ nl ++ nl
       ++ py "User: " ++ message ++ nl ++ py "Assistant:"
  /\ full_prompt message (Some []) mood = full_prompt message None mood.
Proof.
  split; [|split; reflexivity].
  intros history H. unfold full_prompt, compose_prompt.
  rewrite (build_context_nonempty history H).
  rewrite build_context_window. by rewrite <- ?app_assoc.
Qed.

Lemma history_section_presence_witness :
  full_prompt (py "Hi") (Some [∅]) (py "default")
  = system_prompt_for (py "default") ++ nl ++ nl
    ++ py "Conversation history:" ++ nl
    ++ concat (turn_line <$> slice_last 10 [∅ : gmap str pyval]) ++ nl
    ++ py "User: " ++ py "Hi" ++ nl ++ py "Assistant:".
Proof.
  refine (proj1 (history_section_presence (py "Hi") (py "default")) [∅] _).
  discriminate.
Defined.



(** X9. The content of a turn is copied into the context as it is: a
    content holding a newline and ["User: "] renders exactly as two turns
    would, so different histories give the same context. *)
Theorem content_is_not_escaped (b : bool) (c1 c2 : str) :
  build_context (Some [mk_turn b (c1 ++ nl ++ py "User: " ++ c2)])
  = build_context (Some [mk_turn b c1; mk_turn true c2])
  /\ [mk_turn b (c1 ++ nl ++ py "User: " ++ c2)]
     <> [mk_turn b c1; mk_turn true c2].
Proof.
  split; [|discriminate].
  rewrite !build_context_window. rewrite !slice_last_short by (simpl; lia).
  simpl. rewrite !turn_line_mk_turn, ?app_nil_r.
  rewrite <- ?app_assoc. reflexivity.
Qed.

(** X10. The mood has an effect: two different recognized moods never give
    the same prompt, whatever the message and the history. *)
Theorem recognized_moods_give_different_prompts
    (message : str) (history : option (list (gmap str pyval)))
    (mood1 mood2 : str) :
  mood1 ∈ recognized_moods -> mood2 ∈ recognized_moods ->
  mood1 <> mood2 ->
  full_prompt message history mood1 <> full_prompt message history mood2.
Proof.
  intros H1 H2 Hne Heq. rewrite !full_prompt_tail in Heq.
  apply app_inv_tail in Heq. unfold recognized_moods in H1, H2.
  repeat (apply elem_of_cons in H1 as [-> | H1]);
    try (by apply elem_of_nil in H1);
    repeat (apply elem_of_cons in H2 as [-> | H2]);
    try (by apply elem_of_nil in H2);
    try congruence;
    apply (f_equal (take 60)) in Heq; vm_compute in Heq; discriminate Heq.
Qed.

Lemma recognized_moods_give_different_prompts_witness :
  full_prompt (py "Hi") None (py "funny")
  <> full_prompt (py "Hi") None (py "precise").
Proof.
  refine (recognized_moods_give_different_prompts (py "Hi") None
            (py "funny") (py "precise") _ _ _).
  - apply list_elem_of_In. vm_compute. tauto.
  - apply list_elem_of_In. vm_compute. tauto.
  - vm_compute. discriminate.
Defined.

(** ** Titles *)

Lemma title_of_text
    (self : GeminiService) (first_message : str)
    (r : GenerateContentResponse) (s : str) (w : world) :
  generate_content (model self) (title_prompt first_message) = Return r ->
  text r = Return (PyStr s) ->
  s <> [] ->
  generate_chat_title self first_message w
  = (Some (Return (slice_upto 50
               (replace_char 39 [] (replace_char 34 [] (strip s))))), w).
Proof.
  intros Hcall Ht Hne.
  py_unfold generate_chat_title. rewrite Hcall. py_step. rewrite Ht.
  py_step. destruct s as [|c s]; [congruence|]. simpl truthy. py_step.
  reflexivity.
Qed.



(** X12. A non-empty text made of whitespace and quotes only, such as a
    pair of quotes, gives the empty title, not the fallback title. *)
Theorem title_can_be_empty
    (self : GeminiService) (first_message : str)
    (r : GenerateContentResponse) (s : str) (w : world) :
  generate_content (model self) (title_prompt first_message) = Return r ->
  text r = Return (PyStr s) ->
  s <> [] ->
  Forall (fun c => c = 34 \/ c = 39) (strip s) ->
  generate_chat_title self first_message w = (Some (Return []), w)
  /\ [] <> new_conversation.
Proof.
  intros Hcall Ht Hne Hq. split; [|discriminate].
  rewrite (title_of_text self first_message r s w Hcall Ht Hne).
  by rewrite (replace_quotes_only _ Hq).
Qed.

Lemma title_can_be_empty_witness :
  generate_chat_title
    (service_of (answering_model (Return (PyStr ([32; 34; 34; 10])))))
    (py "Hi") fresh_world
  = (Some (Return []), fresh_world).
Proof.
  refine (proj1 (title_can_be_empty
    (service_of (answering_model (Return (PyStr ([32; 34; 34; 10])))))
    (py "Hi") _ [32; 34; 34; 10] fresh_world eq_refl eq_refl _ _)).
  - discriminate.
  - vm_compute. repeat constructor.
Defined.

(** X13. A text that is already a clean title (no whitespace at its ends,
    no quote character, at most 50 characters) is returned unchanged. *)
Theorem clean_title_is_kept
    (self : GeminiService) (first_message : str)
    (r : GenerateContentResponse) (s : str) (w : world) :
  generate_content (model self) (title_prompt first_message) = Return r ->
  text r = Return (PyStr s) ->
  s <> [] ->
  is_trimmed s = true ->
  34 ∉ s -> 39 ∉ s ->
  (length s <= 50)%nat ->
  generate_chat_title self first_message w = (Some (Return s), w).
Proof.
  intros Hcall Ht Hne Htr Hd Hs Hlen.
  rewrite (title_of_text self first_message r s w Hcall Ht Hne).
  rewrite (strip_of_trimmed s Htr).
  rewrite (replace_char_absent 34 [] s Hd).
  rewrite (replace_char_absent 39 [] s Hs).
  unfold slice_upto. by rewrite take_ge.
Qed.

Lemma clean_title_is_kept_witness :
  generate_chat_title
    (service_of (answering_model (Return (PyStr (py "Trip to Japan")))))
    (py "Hi") fresh_world
  = (Some (Return (py "Trip to Japan")), fresh_world).
Proof.
  refine (clean_title_is_kept
    (service_of (answering_model (Return (PyStr (py "Trip to Japan")))))
    (py "Hi") _ (py "Trip to Japan") fresh_world eq_refl eq_refl _ _ _ _ _).
  - vm_compute. discriminate.
  - vm_compute. reflexivity.
  - intros H. apply list_elem_of_In in H. vm_compute in H.
    repeat (destruct H as [H|H]; [discriminate H|]). exact H.
  - intros H. apply list_elem_of_In in H. vm_compute in H.
    repeat (destruct H as [H|H]; [discriminate H|]). exact H.
  - vm_compute. lia.
Defined.

(** X14. Whitespace is trimmed before the quotes are removed, so a title
    that the remote call wraps in double quotes comes back without the
    quotes but with whatever whitespace stood just inside them. *)
Theorem quoted_title_keeps_inner_whitespace
    (self : GeminiService) (first_message : str)
    (r : GenerateContentResponse) (t : str) (w : world) :
  generate_content (model self) (title_prompt first_message) = Return r ->
  text r = Return (PyStr ([34] ++ t ++ [34])) ->
  34 ∉ t -> 39 ∉ t ->
  (length t <= 50)%nat ->
  generate_chat_title self first_message w = (Some (Return t), w).
Proof.
  intros Hcall Ht Hd Hs Hlen.
  rewrite (title_of_text self first_message r _ w Hcall Ht)
    by discriminate.
  rewrite strip_of_trimmed.
  2:{ unfold is_trimmed. cbn [head app].
      change (34 :: t ++ [34]) with ((34 :: t) ++ [34]).
      rewrite last_snoc. reflexivity. }
  assert (Hq : replace_char 34 [] ([34] ++ t ++ [34]) = t).
  { rewrite !replace_char_app, (replace_char_absent 34 [] t Hd).
    change (replace_char 34 [] [34]) with (@nil N).
    by rewrite app_nil_r. }
  rewrite Hq, (replace_char_absent 39 [] t Hs).
  unfold slice_upto. by rewrite take_ge.
Qed.

Lemma quoted_title_keeps_inner_whitespace_witness :
  generate_chat_title
    (service_of (answering_model
       (Return (PyStr ([34] ++ py " Trip to Japan " ++ [34])))))
    (py "Hi") fresh_world
  = (Some (Return (py " Trip to Japan ")), fresh_world).
Proof.
  refine (quoted_title_keeps_inner_whitespace
    (service_of (answering_model
       (Return (PyStr ([34] ++ py " Trip to Japan " ++ [34])))))
    (py "Hi") _ (py " Trip to Japan ") fresh_world eq_refl eq_refl _ _ _).
  - intros H. apply list_elem_of_In in H. vm_compute in H.
    repeat (destruct H as [H|H]; [discriminate H|]). exact H.
  - intros H. apply list_elem_of_In in H. vm_compute in H.
    repeat (destruct H as [H|H]; [discriminate H|]). exact H.
  - vm_compute. lia.
Defined.

(** ** Construction and use *)

(** X15. Construction either raises and leaves everything as it was
    (nothing logged, the library not configured), or returns a service and
    logs one INFO record. A returned service holds the credential the
    lookup gave, which is truthy and not the placeholder, and its model is
    the remote ["gemini-2.5-flash"] with the fixed generation parameters and
    safety settings. *)
Theorem construction_outcomes
    (config : str -> outcome pyval)
    (remote : str -> GenerationConfig -> list SafetySetting ->
              str -> outcome GenerateContentResponse)
    (w : world) :
  (exists e, GeminiService_init config remote w = (Some (Raise e), w))
  \/ (exists self w',
        GeminiService_init config remote w = (Some (Return self), w')
        /\ log w'
           = log w ++ [(INFO, py "Gemini AI service initialized successfully")]
        /\ config (py "GEMINI_API_KEY") = Return (api_key self)
        /\ truthy (api_key self) = true
        /\ api_key self <> PyStr placeholder_key
        /\ (forall k, api_key self = PyStr k -> genai_api_key w' = Some k)
        /\ generate_content (model self)
           = remote (py "gemini-2.5-flash")
               fixed_generation_config fixed_safety_settings).
Proof.
  unfold GeminiService_init, bind, lift.
  destruct (config (py "GEMINI_API_KEY")) as [v|e] eqn:Ec; [|left; eauto].
  destruct (negb (truthy v) || py_eq v (PyStr placeholder_key)) eqn:Hg;
    [left; unfold raise; eauto|].
  apply orb_false_iff in Hg as [Htr Hph]. apply negb_false_iff in Htr.
  right. eexists _, _. split; [reflexivity|]. simpl.
  repeat split; try done.
  - intros ->. vm_compute in Hph. discriminate Hph.
  - intros k ->. reflexivity.
Qed.

(** X16. Construction and reply compose: a service that construction
    returned answers a message with the trimmed text that the remote
    ["gemini-2.5-flash"], under the fixed parameters, gives for the composed
    prompt. *)
Theorem constructed_service_replies
    (config : str -> outcome pyval)
    (remote : str -> GenerationConfig -> list SafetySetting ->
              str -> outcome GenerateContentResponse)
    (w w' w2 : world) (self : GeminiService)
    (message : str) (history : option (list (gmap str pyval))) (mood : str)
    (r : GenerateContentResponse) (s : str) :
  GeminiService_init config remote w = (Some (Return self), w') ->
  remote (py "gemini-2.5-flash") fixed_generation_config fixed_safety_settings
    (full_prompt message history mood) = Return r ->
  text r = Return (PyStr s) ->
  s <> [] ->
  generate_response self message history mood w2 = (Some (Return (strip s)), w2).
Proof.
  intros Hinit Hcall Ht Hne.
  assert (Hm : generate_content (model self)
               = remote (py "gemini-2.5-flash")
                   fixed_generation_config fixed_safety_settings).
  { unfold GeminiService_init, bind, lift in Hinit.
    destruct (config (py "GEMINI_API_KEY")) as [v|e]; [|discriminate].
    destruct (negb (truthy v) || py_eq v (PyStr placeholder_key));
      [discriminate|].
    injection Hinit as <- _. reflexivity. }
  rewrite <- Hm in Hcall.
  exact (generate_response_genuine_text self message history mood r s w2
           Hcall Ht Hne).
Qed.

Lemma constructed_service_replies_witness :
  exists self w',
    GeminiService_init (config_of (Some (py "AIzaSy-example"))) echo_remote
      fresh_world = (Some (Return self), w')
    /\ generate_response self (py "Hi") None (py "default") w'
       = (Some (Return (strip (py " " ++ full_prompt (py "Hi") None (py "default")
                         ++ nl))), w').
Proof.
  exists {| api_key := PyStr (py "AIzaSy-example");
            generation_config := fixed_generation_config;
            safety_settings := fixed_safety_settings;
            model := genai_GenerativeModel echo_remote (py "gemini-2.5-flash")
                       fixed_generation_config fixed_safety_settings |},
         (World [(INFO, py "Gemini AI service initialized successfully")]
                (Some (py "AIzaSy-example"))).
  split; [reflexivity|].
  refine (constructed_service_replies
    (config_of (Some (py "AIzaSy-example"))) echo_remote fresh_world _ _ _
    (py "Hi") None (py "default") _ _ eq_refl eq_refl eq_refl _).
  discriminate.
Defined.
